(** * perle_env.py: the environment provisioning stub, embedded in Rocq

    The development follows [src/src/perle_env.py]: the class
    [EnvironmentProvisioner] with its constructor and its three methods
    [_generate_env_id], [_simulate_aws_provisioning] and [new_environment].

    Modelling choices.
    - Python strings are [string]; a Python list of strings is [list string].
    - A Python [dict] is an association list in insertion order ([dict V]):
      the order of the keys is visible in the error message of
      [new_environment] and in the dumped record.
    - The five fixed keys of a track configuration make it a record
      ([Template]).
    - The file system is a finite map from path to the contents of the file,
      and the contents are the sequence of writes issued on the handle.
      Opening, writing and printing are taken to succeed.
    - [datetime.now()] and [os.urandom] read from an oracle; the state
      counts how much of it has been consumed.
    - A call completes by returning a value or by raising ([completion]). *)

From Stdlib Require Import NArith Ascii String List Lia.
From Stdlib.Strings Require Import Byte.
From stdpp Require Import base option gmap strings.

Import ListNotations.
Open Scope string_scope.
Open Scope list_scope.

(** ** Strings *)

Definition nl : string := String (ascii_of_nat 10) EmptyString.

(** [sep.join(parts)] *)
Definition join (sep : string) (parts : list string) : string :=
  String.concat sep parts.

(** [s.startswith("/")] and [s.endswith("/")] *)
Definition startswith_slash (s : string) : bool :=
  match s with
  | String c _ => Ascii.eqb c "/"
  | EmptyString => false
  end.

Fixpoint endswith_slash (s : string) : bool :=
  match s with
  | EmptyString => false
  | String c EmptyString => Ascii.eqb c "/"
  | String _ rest => endswith_slash rest
  end.

(** [os.path.join(a, b)] of posixpath, for two components. *)
Definition os_path_join (a b : string) : string :=
  if startswith_slash b then b
  else if (String.length a =? 0)%nat || endswith_slash a then a +:+ b
  else a +:+ "/" +:+ b.

(** ** Decimal and hexadecimal formatting *)

Definition digit_char (n : N) : ascii := ascii_of_N (48 + n mod 10).

(** The [w] low decimal digits of [n], most significant first. *)
Fixpoint fixed_dec (w : nat) (n : N) : string :=
  match w with
  | O => EmptyString
  | S w' => fixed_dec w' (n / 10) +:+ String (digit_char n) EmptyString
  end.

(** All the decimal digits of [n] (at least one). *)
Fixpoint dec_aux (fuel : nat) (n : N) (acc : string) : string :=
  match fuel with
  | O => acc
  | S fuel' =>
      let acc' := String (digit_char n) acc in
      if (n / 10 =? 0)%N then acc' else dec_aux fuel' (n / 10) acc'
  end.

Definition dec (n : N) : string := dec_aux (S (N.to_nat (N.log2 n))) n EmptyString.

(** ["%0wd" % n]: zero padded to width [w], longer when [n] needs it. *)
Definition zpad (w : nat) (n : N) : string :=
  if (n <? 10 ^ N.of_nat w)%N then fixed_dec w n else dec n.

Definition hex_char (n : N) : ascii :=
  if (n <? 10)%N then ascii_of_N (48 + n) else ascii_of_N (87 + n).

(** Two lower-case hexadecimal digits of a byte, as [bytes.hex()] prints it. *)
Definition hex_byte (b : byte) : string :=
  let n := Byte.to_N b in
  String (hex_char (n / 16)) (String (hex_char (n mod 16)) EmptyString).

(** [bs.hex()] *)
Fixpoint hex (bs : list byte) : string :=
  match bs with
  | [] => EmptyString
  | b :: rest => hex_byte b +:+ hex rest
  end.

Definition is_digit (c : ascii) : bool :=
  let n := N_of_ascii c in ((48 <=? n) && (n <=? 57))%N.

Definition is_lower_hex (c : ascii) : bool :=
  let n := N_of_ascii c in
  (((48 <=? n) && (n <=? 57)) || ((97 <=? n) && (n <=? 102)))%N.

Fixpoint string_forall (p : ascii -> bool) (s : string) : bool :=
  match s with
  | EmptyString => true
  | String c rest => p c && string_forall p rest
  end.

(** ** datetime *)

Record datetime := mkDatetime {
  year : N; month : N; day : N;
  hour : N; minute : N; second : N; microsecond : N
}.

(** The ranges the [datetime] class enforces on its fields
    (MINYEAR = 1, MAXYEAR = 9999). *)
Definition valid_datetime (d : datetime) : bool :=
  ((1 <=? year d) && (year d <=? 9999) &&
   (1 <=? month d) && (month d <=? 12) &&
   (1 <=? day d) && (day d <=? 31) &&
   (hour d <? 24) && (minute d <? 60) && (second d <? 60) &&
   (microsecond d <? 1000000))%N.

(** [d.strftime("%Y%m%d%H%M%S")] *)
Definition strftime_YmdHMS (d : datetime) : string :=
  zpad 4 (year d) +:+ zpad 2 (month d) +:+ zpad 2 (day d) +:+
  zpad 2 (hour d) +:+ zpad 2 (minute d) +:+ zpad 2 (second d).

(** [str(d)] of a naive datetime: ISO format with a space separator, the
    microseconds only when they are not zero. *)
Definition str_datetime (d : datetime) : string :=
  zpad 4 (year d) +:+ "-" +:+ zpad 2 (month d) +:+ "-" +:+ zpad 2 (day d) +:+
  " " +:+ zpad 2 (hour d) +:+ ":" +:+ zpad 2 (minute d) +:+ ":" +:+
  zpad 2 (second d) +:+
  (if (microsecond d =? 0)%N then "" else "." +:+ zpad 6 (microsecond d)).

(** The datetime cut at the second: what the timestamp shows of it. *)
Definition to_the_second (d : datetime) : datetime :=
  mkDatetime (year d) (month d) (day d) (hour d) (minute d) (second d) 0.

(** The 256 bytes, and the byte whose two hexadecimal digits are [s]. *)
Definition all_bytes : list byte :=
  flat_map (fun n => match Byte.of_nat n with Some b => [b] | None => [] end)
    (seq 0 256).

Definition unhex_byte (s : string) : option byte :=
  find (fun b => String.eqb (hex_byte b) s) all_bytes.

(** ** Python values, dictionaries, completions *)

Inductive pyval : Type :=
| VNone
| VStr (s : string)
| VList (items : list string).   (* a list of str *)

(** A [dict] with string keys, in insertion order. *)
Definition dict (V : Type) : Type := list (string * V).

Fixpoint dict_get {V} (k : string) (d : dict V) : option V :=
  match d with
  | [] => None
  | (k', v) :: rest => if String.eqb k k' then Some v else dict_get k rest
  end.

(** [k in d] *)
Definition dict_mem {V} (k : string) (d : dict V) : bool :=
  match dict_get k d with Some _ => true | None => false end.

(** [d.keys()] *)
Definition dict_keys {V} (d : dict V) : list string := map fst d.

(** [d[k] = v]: the value is replaced where the key stands, a new key goes
    to the end. *)
Fixpoint dict_set {V} (k : string) (v : V) (d : dict V) : dict V :=
  match d with
  | [] => [(k, v)]
  | (k', v') :: rest =>
      if String.eqb k k' then (k', v) :: rest else (k', v') :: dict_set k v rest
  end.

Inductive pyexn : Type := Exn (cls : string).

Inductive completion (A : Type) : Type :=
| Returns (a : A)
| Raises (e : pyexn).
Arguments Returns {A} a.
Arguments Raises {A} e.

(** ** The provisioner object and the world around it *)

(** One entry of [env_configs]. *)
Record Template := mkTemplate {
  description : string;
  infrastructure_template : string;
  ci_cd_profile : string;
  agent_policy : string;
  resources : list string
}.

(** The fields of an [EnvironmentProvisioner] instance. *)
Record Provisioner := mkProvisioner {
  output_dir : string;
  env_configs : dict Template
}.

(** What was written on a file handle: [json.dump(obj, f, indent=n)] keeps
    the dictionary as it was at the time of the call, [f.write(s)] the text. *)
Inductive chunk : Type :=
| JsonDump (indent : nat) (obj : dict pyval)
| Write (text : string).

(** An effect on the outside, as the trace records it. *)
Inductive effect : Type :=
| Printed (line : string)
| Opened (path : string)
| Wrote (path : string) (c : chunk).

Record World := mkWorld {
  dirs : gset string;                 (* directories made by os.makedirs *)
  files : gmap string (list chunk);   (* regular files, by path *)
  stdout : list string;               (* one entry per print call *)
  trace : list effect;                (* prints and file operations, in order *)
  now_calls : nat;                    (* datetime.now() calls so far *)
  urandom_read : nat                  (* bytes taken from os.urandom so far *)
}.

Record State := mkState {
  self : Provisioner;
  world : World
}.

(** The readings of the wall clock and the bytes of the entropy source, in
    the order in which the program asks for them. *)
Record Oracle := mkOracle {
  wall_clock : nat -> datetime;
  entropy : nat -> byte
}.

(** ** The monad of methods: state and completion *)

Definition M (A : Type) : Type := State -> completion A * State.

#[global] Instance M_ret : MRet M := fun A a st => (Returns a, st).

#[global] Instance M_bind : MBind M := fun A B k m st =>
  match m st with
  | (Returns a, st') => k a st'
  | (Raises e, st') => (Raises e, st')
  end.

Definition get_self : M Provisioner := fun st => (Returns (self st), st).

Definition modify_world (f : World -> World) : M unit :=
  fun st => (Returns tt, mkState (self st) (f (world st))).

(** [print(s)] *)
Definition print (s : string) : M unit :=
  modify_world (fun w =>
    mkWorld (dirs w) (files w) (stdout w ++ [s])%list
      (trace w ++ [Printed s])%list (now_calls w) (urandom_read w)).

(** [open(path, "w")]: the file is created or truncated; the handle is the
    path. *)
Definition open_w (path : string) : M string := fun st =>
  let w := world st in
  (Returns path,
   mkState (self st)
     (mkWorld (dirs w) (<[path := []]> (files w)) (stdout w)
        (trace w ++ [Opened path])%list (now_calls w) (urandom_read w))).

Definition append_chunk (f : string) (c : chunk) : M unit :=
  modify_world (fun w =>
    mkWorld (dirs w) (alter (fun cs => (cs ++ [c])%list) f (files w)) (stdout w)
      (trace w ++ [Wrote f c])%list (now_calls w) (urandom_read w)).

(** [f.write(s)] *)
Definition f_write (f : string) (s : string) : M unit := append_chunk f (Write s).

(** [json.dump(obj, f, indent=n)] *)
Definition json_dump (obj : dict pyval) (f : string) (indent : nat) : M unit :=
  append_chunk f (JsonDump indent obj).

(** [os.makedirs(path, exist_ok=True)] *)
Definition os_makedirs (path : string) (w : World) : World :=
  mkWorld ({[path]} ∪ dirs w) (files w) (stdout w) (trace w) (now_calls w)
    (urandom_read w).

Section Methods.

Variable orc : Oracle.

(** [datetime.now()] *)
Definition datetime_now : M datetime := fun st =>
  let w := world st in
  (Returns (wall_clock orc (now_calls w)),
   mkState (self st)
     (mkWorld (dirs w) (files w) (stdout w) (trace w) (S (now_calls w))
        (urandom_read w))).

(** [os.urandom(n)] *)
Definition os_urandom (n : nat) : M (list byte) := fun st =>
  let w := world st in
  (Returns (map (entropy orc) (seq (urandom_read w) n)),
   mkState (self st)
     (mkWorld (dirs w) (files w) (stdout w) (trace w) (now_calls w)
        (urandom_read w + n))).

(** ** The class EnvironmentProvisioner *)

(** The dictionary literal assigned to [self.env_configs]. *)
Definition default_env_configs : dict Template :=
  [ ("demo",
     mkTemplate
       "Short-Term Demo Environment - ephemeral, cost-optimized, rapid."
       "aws_demo_template.json"
       "demo_ci_cd_profile.json"
       "demo_agent_policy.json"
       ["Lambda"; "DynamoDB (on-demand)"; "API Gateway"]);
    ("customer",
     mkTemplate
       "Medium-Term Customer Environment - stable, scalable, persistent."
       "aws_customer_template.json"
       "customer_ci_cd_profile.json"
       "customer_agent_policy.json"
       ["EC2 (Auto Scaling)"; "RDS"; "EKS"; "S3"]);
    ("platform",
     mkTemplate
       "Long-Term Platform Environment - durable, highly available, secure."
       "aws_platform_template.json"
       "platform_ci_cd_profile.json"
       "platform_agent_policy.json"
       ["EC2 (Dedicated Instances)"; "Aurora Global DB"; "EKS (Multi-AZ)";
        "VPC Endpoints"; "GuardDuty"]) ].

Definition default_output_dir : string := "env_provisioning_logs".

(** [EnvironmentProvisioner(output_dir)], run in the world [w]. *)
Definition __init__ (output_dir : string) (w : World) : State :=
  mkState (mkProvisioner output_dir default_env_configs) (os_makedirs output_dir w).

(** [self._generate_env_id(track)] *)
Definition _generate_env_id (track : string) : M string :=
  now ← datetime_now;
  let timestamp := strftime_YmdHMS now in
  rnd ← os_urandom 4;
  mret (track +:+ "-" +:+ timestamp +:+ "-" +:+ hex rnd).

(** [self._simulate_aws_provisioning(env_id, config)] *)
Definition _simulate_aws_provisioning (env_id : string) (config : Template) : M pyval :=
  print ("  [SIMULATION] Initiating AWS CloudFormation/Terraform for " +:+ env_id
         +:+ " with template: " +:+ infrastructure_template config);;
  print ("  [SIMULATION] Configuring CI/CD pipeline for " +:+ env_id
         +:+ " using profile: " +:+ ci_cd_profile config);;
  print ("  [SIMULATION] Deploying AI agents configured with policy: "
         +:+ agent_policy config);;
  print ("  [SIMULATION] Provisioning core resources: "
         +:+ join ", " (resources config));;
  mret VNone.

(** The dictionary literal bound to [provisioning_details]. *)
Definition initial_details (env_id track : string) (env_config : Template)
    (start_time : string) : dict pyval :=
  [ ("env_id", VStr env_id);
    ("track_type", VStr track);
    ("description", VStr (description env_config));
    ("infrastructure_template", VStr (infrastructure_template env_config));
    ("ci_cd_profile", VStr (ci_cd_profile env_config));
    ("agent_policy", VStr (agent_policy env_config));
    ("provisioned_resources_simulation", VList (resources env_config));
    ("status", VStr "IN_PROGRESS");
    ("start_time", VStr start_time) ].

(** [self.new_environment(track, name)]; [name] defaults to [None].
    The test [track not in self.env_configs] and the lookup
    [self.env_configs[track]] are one [match]; [name if name else ...]
    takes [name] when it is a non-empty string. *)
Definition new_environment (track : string) (name : option string) : M pyval :=
  this ← get_self;
  match dict_get track (env_configs this) with
  | None =>
      print ("Error: Invalid track type '" +:+ track
             +:+ "'. Available tracks are: "
             +:+ join ", " (dict_keys (env_configs this)));;
      mret VNone
  | Some env_config =>
      env_id ← match name with
               | Some (String _ _ as n) => mret n
               | _ => _generate_env_id track
               end;
      let log_file_path := os_path_join (output_dir this) (env_id +:+ ".log") in
      print (nl +:+ "--- Initiating Environment Provisioning for '" +:+ track
             +:+ "' track ---");;
      print ("Environment ID: " +:+ env_id);;
      print ("Description: " +:+ description env_config);;
      t_start ← datetime_now;
      let provisioning_details :=
        initial_details env_id track env_config (str_datetime t_start) in
      f ← open_w log_file_path;
      json_dump provisioning_details f 4;;
      f_write f (nl +:+ nl +:+ "--- Simulation Log ---" +:+ nl);;
      t1 ← datetime_now;
      f_write f ("[" +:+ str_datetime t1 +:+ "] Starting provisioning for "
                 +:+ env_id +:+ nl);;
      print ("  [INFO] Writing provisioning details to " +:+ log_file_path);;
      _simulate_aws_provisioning env_id env_config;;
      let provisioning_details :=
        dict_set "status" (VStr "COMPLETED") provisioning_details in
      t_end ← datetime_now;
      let provisioning_details :=
        dict_set "end_time" (VStr (str_datetime t_end)) provisioning_details in
      t2 ← datetime_now;
      f_write f ("[" +:+ str_datetime t2 +:+ "] Provisioning completed for "
                 +:+ env_id +:+ nl);;
      json_dump provisioning_details f 4;;
      print ("--- Environment '" +:+ env_id +:+ "' Provisioning Initiated (simulated) ---");;
      print ("Details logged to: " +:+ log_file_path);;
      print ("Next steps for a real system:" +:+ nl
             +:+ "  1. An Agent Orchestration Service (AOS) agent would pick up this request." +:+ nl
             +:+ "  2. It would trigger the Infrastructure Orchestration Engine (IOE) to provision resources." +:+ nl
             +:+ "  3. CI/CD pipelines would be configured via the PaaS." +:+ nl
             +:+ "  4. Agent-specific configurations would be applied." +:+ nl);;
      mret VNone
  end.

(** A call of one of the three methods, and a sequence of such calls. *)
Inductive call : Type :=
| CallNewEnvironment (track : string) (name : option string)
| CallGenerateEnvId (track : string)
| CallSimulate (env_id : string) (config : Template).

Definition run_call (c : call) (st : State) : State :=
  match c with
  | CallNewEnvironment track name => snd (new_environment track name st)
  | CallGenerateEnvId track => snd (_generate_env_id track st)
  | CallSimulate env_id config => snd (_simulate_aws_provisioning env_id config st)
  end.

Definition run_calls (cs : list call) (st : State) : State :=
  fold_left (fun s c => run_call c s) cs st.

End Methods.

(** ** What one call of new_environment leaves behind, in closed form

    The definitions of this section only name the pieces of the result of
    [new_environment]; [new_environment_run] below proves that the method
    computes them. *)

Section ClosedForm.

Variable orc : Oracle.

(** The identifier [_generate_env_id] builds in the world [w]. *)
Definition generated_id (track : string) (w : World) : string :=
  track +:+ "-" +:+ strftime_YmdHMS (wall_clock orc (now_calls w)) +:+ "-"
  +:+ hex (map (entropy orc) (seq (urandom_read w) 4)).

(** The value of [name if name else self._generate_env_id(track)]. *)
Definition chosen_id (track : string) (name : option string) (w : World) : string :=
  match name with
  | Some (String _ _ as n) => n
  | _ => generated_id track w
  end.

(** Clock readings and entropy bytes that choosing the identifier takes. *)
Definition id_now_calls (name : option string) : nat :=
  match name with Some (String _ _) => 0 | _ => 1 end.

Definition id_urandom (name : option string) : nat :=
  match name with Some (String _ _) => 0 | _ => 4 end.

(** The four clock readings of the body, after the identifier is chosen. *)
Definition body_clock (name : option string) (w : World) (i : nat) : datetime :=
  wall_clock orc (i + (id_now_calls name + now_calls w)).

Definition first_record (track : string) (name : option string) (cfg : Template)
    (w : World) : dict pyval :=
  initial_details (chosen_id track name w) track cfg
    (str_datetime (body_clock name w 0)).

Definition second_record (track : string) (name : option string) (cfg : Template)
    (w : World) : dict pyval :=
  dict_set "end_time" (VStr (str_datetime (body_clock name w 2)))
    (dict_set "status" (VStr "COMPLETED") (first_record track name cfg w)).

Definition log_contents (track : string) (name : option string) (cfg : Template)
    (w : World) : list chunk :=
  let env_id := chosen_id track name w in
  [ JsonDump 4 (first_record track name cfg w);
    Write (nl +:+ nl +:+ "--- Simulation Log ---" +:+ nl);
    Write ("[" +:+ str_datetime (body_clock name w 1)
           +:+ "] Starting provisioning for " +:+ env_id +:+ nl);
    Write ("[" +:+ str_datetime (body_clock name w 3)
           +:+ "] Provisioning completed for " +:+ env_id +:+ nl);
    JsonDump 4 (second_record track name cfg w) ].

Definition simulation_lines (env_id : string) (config : Template) : list string :=
  [ "  [SIMULATION] Initiating AWS CloudFormation/Terraform for " +:+ env_id
      +:+ " with template: " +:+ infrastructure_template config;
    "  [SIMULATION] Configuring CI/CD pipeline for " +:+ env_id
      +:+ " using profile: " +:+ ci_cd_profile config;
    "  [SIMULATION] Deploying AI agents configured with policy: "
      +:+ agent_policy config;
    "  [SIMULATION] Provisioning core resources: "
      +:+ join ", " (resources config) ].

Definition header_lines (track env_id : string) (cfg : Template) : list string :=
  [ nl +:+ "--- Initiating Environment Provisioning for '" +:+ track
      +:+ "' track ---";
    "Environment ID: " +:+ env_id;
    "Description: " +:+ description cfg ].

Definition footer_lines (env_id path : string) : list string :=
  [ "--- Environment '" +:+ env_id +:+ "' Provisioning Initiated (simulated) ---";
    "Details logged to: " +:+ path;
    "Next steps for a real system:" +:+ nl
      +:+ "  1. An Agent Orchestration Service (AOS) agent would pick up this request." +:+ nl
      +:+ "  2. It would trigger the Infrastructure Orchestration Engine (IOE) to provision resources." +:+ nl
      +:+ "  3. CI/CD pipelines would be configured via the PaaS." +:+ nl
      +:+ "  4. Agent-specific configurations would be applied." +:+ nl ].

Definition info_line (path : string) : string :=
  "  [INFO] Writing provisioning details to " +:+ path.

Definition console_lines (track env_id path : string) (cfg : Template) : list string :=
  header_lines track env_id cfg ++ [info_line path]
  ++ simulation_lines env_id cfg ++ footer_lines env_id path.

(** The effects of the call, in the order in which they happen. *)
Definition call_trace (track : string) (name : option string) (cfg : Template)
    (path : string) (w : World) : list effect :=
  let env_id := chosen_id track name w in
  map Printed (header_lines track env_id cfg)
  ++ [Opened path]
  ++ map (Wrote path) (firstn 3 (log_contents track name cfg w))
  ++ [Printed (info_line path)]
  ++ map Printed (simulation_lines env_id cfg)
  ++ map (Wrote path) (skipn 3 (log_contents track name cfg w))
  ++ map Printed (footer_lines env_id path).

Definition after_new_environment (track : string) (name : option string)
    (cfg : Template) (st : State) : State :=
  let w := world st in
  let env_id := chosen_id track name w in
  let path := os_path_join (output_dir (self st)) (env_id +:+ ".log") in
  mkState (self st)
    (mkWorld (dirs w)
       (<[path := log_contents track name cfg w]> (files w))
       (stdout w ++ console_lines track env_id path cfg)
       (trace w ++ call_trace track name cfg path w)
       (4 + (id_now_calls name + now_calls w))
       (urandom_read w + id_urandom name)).

(** The state after a call with a track that is not in the catalog. *)
Definition invalid_track_line (track : string) (configs : dict Template) : string :=
  "Error: Invalid track type '" +:+ track +:+ "'. Available tracks are: "
  +:+ join ", " (dict_keys configs).

Definition after_invalid_track (track : string) (st : State) : State :=
  let w := world st in
  let line := invalid_track_line track (env_configs (self st)) in
  mkState (self st)
    (mkWorld (dirs w) (files w) (stdout w ++ [line]) (trace w ++ [Printed line])
       (now_calls w) (urandom_read w)).

End ClosedForm.

(** The fixed set of tracks. *)
Definition tracks : list string := ["demo"; "customer"; "platform"].

(** A state whose provisioner carries the catalog of the constructor. *)
Definition constructed (st : State) : Prop :=
  env_configs (self st) = default_env_configs.

(** The [env_id] a dumped record carries. *)
Definition record_env_id (c : chunk) : option pyval :=
  match c with
  | JsonDump _ obj => dict_get "env_id" obj
  | Write _ => None
  end.

(** ** Concrete worlds for the examples *)

Definition empty_world : World := mkWorld ∅ ∅ [] [] 0 0.

Definition sample_oracle : Oracle :=
  mkOracle
    (fun k => mkDatetime 2024 3 7 9 5 (N.of_nat k) (1234 * N.of_nat k))
    (fun k => match Byte.of_N ((171 + 17 * N.of_nat k) mod 256) with
              | Some b => b
              | None => x00
              end).

(** A clock that does not advance and an entropy source that repeats. *)
Definition stuck_oracle : Oracle :=
  mkOracle (fun _ => mkDatetime 2024 3 7 9 5 0 0) (fun _ => x2a).

Definition fresh_state : State := __init__ default_output_dir empty_world.

(** The [env_id] of the first record in the file at [path]. *)
Definition logged_env_id (st : State) (path : string) : option pyval :=
  match files (world st) !! path with
  | Some (c :: _) => record_env_id c
  | _ => None
  end.

(** A state in which the identifier "demo-1" is taken. *)
Definition state_with_demo_1 : State :=
  snd (new_environment sample_oracle "demo" (Some "demo-1") fresh_state).

(** ** The command line *)

(** The values [--track] accepts ([choices=...] in [main]). *)
Definition track_choices : list string := ["demo"; "customer"; "platform"].

(** What [parser.parse_args()] returns for the [new] command. *)
Module Namespace.
Record t := mk {
  command : string;
  track : string;
  name : option string       (* [None] when [--name] is not given *)
}.
End Namespace.

Section Main.

Variable orc : Oracle.

(** [main()], run in the world [w], from the namespace the parser returned;
    the argument parser itself is not part of the model. *)
Definition main (args : Namespace.t) (w : World) : completion pyval * State :=
  let provisioner := __init__ default_output_dir w in
  if String.eqb (Namespace.command args) "new" then
    (new_environment orc (Namespace.track args) (Namespace.name args);;
     mret VNone) provisioner
  else (Returns VNone, provisioner).

End Main.

(** ** Log files *)

(** A finished log in directory [dir]: the five writes of one submission,
    under the path of the identifier that both records carry. *)
Definition complete_log (dir path : string) (contents : list chunk) : Prop :=
  exists (env_id : string) (d1 d2 : dict pyval) (t1 t2 t3 : string),
    contents = [JsonDump 4 d1; Write t1; Write t2; Write t3; JsonDump 4 d2]
    /\ path = os_path_join dir (env_id +:+ ".log")
    /\ dict_get "env_id" d1 = Some (VStr env_id)
    /\ dict_get "status" d1 = Some (VStr "IN_PROGRESS")
    /\ dict_get "env_id" d2 = Some (VStr env_id)
    /\ dict_get "status" d2 = Some (VStr "COMPLETED").

(** The nine keys of the first record, in the order of the literal. *)
Definition record_keys : list string :=
  ["env_id"; "track_type"; "description"; "infrastructure_template";
   "ci_cd_profile"; "agent_policy"; "provisioned_resources_simulation";
   "status"; "start_time"].

(** * Properties *)

(** ** The model on concrete inputs *)

Example strftime_example :
  strftime_YmdHMS (mkDatetime 2024 3 7 9 5 0 0) = "20240307090500".
Proof. reflexivity. Qed.

Example str_datetime_example :
  str_datetime (mkDatetime 2024 3 7 9 5 0 1234) = "2024-03-07 09:05:00.001234".
Proof. reflexivity. Qed.

Example hex_example : hex [x00; xab; x0f; xff] = "00ab0fff".
Proof. reflexivity. Qed.

Example os_path_join_example :
  os_path_join "env_provisioning_logs" "demo-1.log" = "env_provisioning_logs/demo-1.log"
  /\ os_path_join "logs/" "a.log" = "logs/a.log"
  /\ os_path_join "logs" "/tmp/a.log" = "/tmp/a.log".
Proof. repeat split; reflexivity. Qed.

Example generate_env_id_example :
  fst (_generate_env_id sample_oracle "demo" fresh_state)
  = Returns "demo-20240307090500-abbccdde".
Proof. reflexivity. Qed.

Example invalid_track_example :
  stdout (world (snd (new_environment sample_oracle "bogus" None fresh_state)))
  = ["Error: Invalid track type 'bogus'. Available tracks are: demo, customer, platform"].
Proof. reflexivity. Qed.

Example named_submission_example :
  logged_env_id
    (snd (new_environment sample_oracle "demo" (Some "demo-1") fresh_state))
    "env_provisioning_logs/demo-1.log"
  = Some (VStr "demo-1").
Proof. vm_compute. reflexivity. Qed.

Example generated_ids_can_coincide :
  let r1 := _generate_env_id stuck_oracle "demo" fresh_state in
  fst (_generate_env_id stuck_oracle "demo" (snd r1)) = fst r1.
Proof. reflexivity. Qed.

Example dict_set_example :
  dict_set "b" 5 [("a", 1); ("b", 2); ("c", 3)] = [("a", 1); ("b", 5); ("c", 3)]
  /\ dict_set "d" 4 [("a", 1); ("b", 2)] = [("a", 1); ("b", 2); ("d", 4)].
Proof. split; reflexivity. Qed.


(** ** The runs of the three methods *)

Lemma generate_env_id_run orc track st :
  _generate_env_id orc track st
  = (Returns (generated_id orc track (world st)),
     mkState (self st)
       (mkWorld (dirs (world st)) (files (world st)) (stdout (world st))
          (trace (world st)) (S (now_calls (world st)))
          (urandom_read (world st) + 4))).
Proof. reflexivity. Qed.

Lemma simulate_run env_id config st :
  _simulate_aws_provisioning env_id config st
  = (Returns VNone,
     mkState (self st)
       (mkWorld (dirs (world st)) (files (world st))
          (stdout (world st) ++ simulation_lines env_id config)
          (trace (world st) ++ map Printed (simulation_lines env_id config))
          (now_calls (world st)) (urandom_read (world st)))).
Proof.
  unfold _simulate_aws_provisioning, mbind, M_bind, print, modify_world; cbn.
  rewrite <- !app_assoc. reflexivity.
Qed.

Lemma new_environment_run orc track name cfg st :
  dict_get track (env_configs (self st)) = Some cfg ->
  new_environment orc track name st
  = (Returns VNone, after_new_environment orc track name cfg st).
Proof.
  intros Hcfg.
  unfold new_environment, mbind, M_bind, get_self.
  rewrite Hcfg.
  destruct name as [[|c n]|]; rewrite ?generate_env_id_run; cbn;
    rewrite simulate_run; cbn;
    unfold after_new_environment, call_trace, console_lines; cbn;
    rewrite !alter_insert_eq; cbn;
    rewrite <- ?app_assoc, ?Nat.add_0_r; reflexivity.
Qed.

Lemma new_environment_invalid orc track name st :
  dict_get track (env_configs (self st)) = None ->
  new_environment orc track name st = (Returns VNone, after_invalid_track track st).
Proof.
  intros Hcfg.
  unfold new_environment, mbind, M_bind, get_self.
  rewrite Hcfg. reflexivity.
Qed.

(** ** Strings: length, characters, cancellation *)

Lemma length_append (a b : string) :
  String.length (a +:+ b) = String.length a + String.length b.
Proof. induction a as [|c a IH]; simpl; [reflexivity | now rewrite IH]. Qed.

Lemma string_forall_append p (a b : string) :
  string_forall p (a +:+ b) = string_forall p a && string_forall p b.
Proof.
  induction a as [|c a IH]; simpl; [reflexivity|].
  rewrite IH. now rewrite andb_assoc.
Qed.

Lemma append_empty_l (s : string) : "" +:+ s = s.
Proof. reflexivity. Qed.

Lemma append_cons c (a b : string) : String c a +:+ b = String c (a +:+ b).
Proof. reflexivity. Qed.

(** Two concatenations that agree, with suffixes of the same length, agree
    part by part. *)
Lemma append_eq_split (a1 a2 b1 b2 : string) :
  String.length b1 = String.length b2 ->
  a1 +:+ b1 = a2 +:+ b2 -> a1 = a2 /\ b1 = b2.
Proof.
  revert a2. induction a1 as [|c1 a1 IH]; intros [|c2 a2] Hlen Heq;
    rewrite ?append_empty_l, ?append_cons in Heq.
  - now split.
  - exfalso. apply (f_equal String.length) in Heq.
    cbn [String.length] in Heq. rewrite length_append in Heq. lia.
  - exfalso. apply (f_equal String.length) in Heq.
    cbn [String.length] in Heq. rewrite length_append in Heq. lia.
  - injection Heq as Hc Hrest. destruct (IH a2 Hlen Hrest) as [-> ->].
    now subst.
Qed.

(** The same with prefixes of the same length. *)
Lemma append_eq_split_l (a1 a2 b1 b2 : string) :
  String.length a1 = String.length a2 ->
  a1 +:+ b1 = a2 +:+ b2 -> a1 = a2 /\ b1 = b2.
Proof.
  revert a2. induction a1 as [|c1 a1 IH]; intros [|c2 a2] Hlen Heq;
    rewrite ?append_empty_l, ?append_cons in Heq;
    cbn [String.length] in Hlen; try discriminate.
  - now split.
  - injection Heq as Hc Hrest. injection Hlen as Hlen.
    destruct (IH a2 Hlen Hrest) as [-> ->]. now subst.
Qed.

(** ** Decimal and hexadecimal formatting *)

Lemma length_fixed_dec w n : String.length (fixed_dec w n) = w.
Proof.
  revert n. induction w as [|w IH]; intros n; simpl; [reflexivity|].
  rewrite length_append, IH. simpl. lia.
Qed.

Lemma digit_char_code n : N_of_ascii (digit_char n) = (48 + n mod 10)%N.
Proof.
  unfold digit_char. apply N_ascii_embedding.
  pose proof (N.mod_lt n 10 ltac:(discriminate)) as H.
  revert H. generalize (n mod 10)%N. intros r H. lia.
Qed.

Lemma is_digit_digit_char n : is_digit (digit_char n) = true.
Proof.
  unfold is_digit. rewrite digit_char_code.
  pose proof (N.mod_lt n 10 ltac:(discriminate)) as H.
  revert H. generalize (n mod 10)%N. intros r H.
  apply andb_true_intro; split; apply N.leb_le; lia.
Qed.

Lemma digits_fixed_dec w n : string_forall is_digit (fixed_dec w n) = true.
Proof.
  revert n. induction w as [|w IH]; intros n; simpl; [reflexivity|].
  rewrite string_forall_append, IH. simpl.
  now rewrite is_digit_digit_char.
Qed.

Lemma zpad_in_range w n : (n < 10 ^ N.of_nat w)%N -> zpad w n = fixed_dec w n.
Proof.
  intros H. unfold zpad. apply N.ltb_lt in H. now rewrite H.
Qed.

(** Below [10 ^ w], the [w] digits determine the number. *)
Lemma fixed_dec_inj w n m :
  (n < 10 ^ N.of_nat w)%N -> (m < 10 ^ N.of_nat w)%N ->
  fixed_dec w n = fixed_dec w m -> n = m.
Proof.
  revert n m. induction w as [|w IH]; intros n m Hn Hm Heq.
  - simpl in Hn, Hm. lia.
  - rewrite Nat2N.inj_succ, N.pow_succ_r' in Hn, Hm.
    simpl in Heq.
    apply append_eq_split in Heq; [|reflexivity].
    destruct Heq as [Hhi Hlo].
    injection Hlo as Hlo.
    apply (f_equal N_of_ascii) in Hlo. rewrite !digit_char_code in Hlo.
    assert (Hq : (n / 10 = m / 10)%N).
    { apply IH; [| |exact Hhi]; apply N.Div0.div_lt_upper_bound; lia. }
    rewrite (N.div_mod n 10), (N.div_mod m 10) by discriminate.
    rewrite Hq. f_equal.
    revert Hlo. generalize (n mod 10)%N (m mod 10)%N. intros; lia.
Qed.

Lemma valid_datetime_ranges d :
  valid_datetime d = true ->
  (year d < 10 ^ N.of_nat 4 /\ month d < 10 ^ N.of_nat 2 /\ day d < 10 ^ N.of_nat 2
   /\ hour d < 10 ^ N.of_nat 2 /\ minute d < 10 ^ N.of_nat 2
   /\ second d < 10 ^ N.of_nat 2)%N.
Proof.
  unfold valid_datetime. intros H.
  repeat (apply andb_prop in H; destruct H as [H ?]).
  repeat match goal with
         | H : (_ <=? _)%N = true |- _ => apply N.leb_le in H
         | H : (_ <? _)%N = true |- _ => apply N.ltb_lt in H
         end.
  change (10 ^ N.of_nat 4)%N with 10000%N.
  change (10 ^ N.of_nat 2)%N with 100%N.
  lia.
Qed.

(** The timestamp of a valid datetime, field by field. *)
Lemma strftime_valid d :
  valid_datetime d = true ->
  strftime_YmdHMS d
  = fixed_dec 4 (year d) +:+ fixed_dec 2 (month d) +:+ fixed_dec 2 (day d) +:+
    fixed_dec 2 (hour d) +:+ fixed_dec 2 (minute d) +:+ fixed_dec 2 (second d).
Proof.
  intros H. apply valid_datetime_ranges in H.
  destruct H as (Hy & Hmo & Hd & Hh & Hmi & Hs).
  unfold strftime_YmdHMS. now rewrite !zpad_in_range.
Qed.

Lemma strftime_length d :
  valid_datetime d = true -> String.length (strftime_YmdHMS d) = 14.
Proof.
  intros H. rewrite (strftime_valid d H).
  now rewrite !length_append, !length_fixed_dec.
Qed.

Lemma strftime_digits d :
  valid_datetime d = true -> string_forall is_digit (strftime_YmdHMS d) = true.
Proof.
  intros H. rewrite (strftime_valid d H).
  now rewrite !string_forall_append, !digits_fixed_dec.
Qed.

Lemma strftime_inj d1 d2 :
  valid_datetime d1 = true -> valid_datetime d2 = true ->
  strftime_YmdHMS d1 = strftime_YmdHMS d2 ->
  to_the_second d1 = to_the_second d2.
Proof.
  intros H1 H2 Heq.
  rewrite (strftime_valid d1 H1), (strftime_valid d2 H2) in Heq.
  apply valid_datetime_ranges in H1, H2.
  destruct H1 as (Hy1 & Hmo1 & Hd1 & Hh1 & Hmi1 & Hs1).
  destruct H2 as (Hy2 & Hmo2 & Hd2 & Hh2 & Hmi2 & Hs2).
  repeat (apply append_eq_split_l in Heq;
          [destruct Heq as [?Hf Heq] | now rewrite !length_fixed_dec]).
  unfold to_the_second.
  f_equal; eapply fixed_dec_inj; eassumption.
Qed.

Lemma strftime_to_the_second d :
  strftime_YmdHMS (to_the_second d) = strftime_YmdHMS d.
Proof. reflexivity. Qed.

Lemma hex_byte_length b : String.length (hex_byte b) = 2.
Proof. reflexivity. Qed.

Lemma hex_byte_lower b : string_forall is_lower_hex (hex_byte b) = true.
Proof. destruct b; vm_compute; reflexivity. Qed.

Lemma unhex_hex_byte b : unhex_byte (hex_byte b) = Some b.
Proof. destruct b; vm_compute; reflexivity. Qed.

Lemma hex_byte_inj b1 b2 : hex_byte b1 = hex_byte b2 -> b1 = b2.
Proof.
  intros H. apply (f_equal unhex_byte) in H.
  rewrite !unhex_hex_byte in H. congruence.
Qed.

Lemma hex_length bs : String.length (hex bs) = 2 * List.length bs.
Proof.
  induction bs as [|b bs IH]; [reflexivity|].
  cbn [hex List.length]. rewrite length_append, hex_byte_length, IH. lia.
Qed.

Lemma hex_lower bs : string_forall is_lower_hex (hex bs) = true.
Proof.
  induction bs as [|b bs IH]; [reflexivity|].
  cbn [hex]. now rewrite string_forall_append, hex_byte_lower, IH.
Qed.

Lemma hex_inj bs1 bs2 :
  List.length bs1 = List.length bs2 -> hex bs1 = hex bs2 -> bs1 = bs2.
Proof.
  revert bs2. induction bs1 as [|b1 bs1 IH]; intros [|b2 bs2] Hlen Heq;
    try discriminate; [reflexivity|].
  cbn [hex] in Heq.
  apply append_eq_split_l in Heq; [|now rewrite !hex_byte_length].
  destruct Heq as [Hb Hrest].
  apply hex_byte_inj in Hb. injection Hlen as Hlen.
  f_equal; [exact Hb | now apply IH].
Qed.

Lemma urandom_length orc k n : List.length (map (entropy orc) (seq k n)) = n.
Proof. now rewrite length_map, length_seq. Qed.

(** ** The catalog *)

(** The membership test of [new_environment] and the lookup that follows it
    decide alike. *)
Lemma dict_mem_get {V} (k : string) (d : dict V) :
  dict_mem k d = false <-> dict_get k d = None.
Proof.
  unfold dict_mem. destruct (dict_get k d); split; congruence.
Qed.

Lemma catalog_lookup track :
  In track tracks ->
  exists cfg, dict_get track default_env_configs = Some cfg /\ resources cfg <> [].
Proof.
  intros [<- | [<- | [<- | []]]]; eexists; (split; [reflexivity | discriminate]).
Qed.

Lemma catalog_lookup_none track :
  ~ In track tracks -> dict_get track default_env_configs = None.
Proof.
  intros Hnot. unfold default_env_configs, dict_get.
  repeat match goal with
         | |- context [String.eqb track ?k] =>
             destruct (String.eqb_spec track k) as [->|_];
             [exfalso; apply Hnot; simpl; tauto|]
         end.
  reflexivity.
Qed.

Lemma run_call_self orc c st : self (run_call orc c st) = self st.
Proof.
  destruct c as [track name | track | env_id config]; cbn [run_call].
  - destruct (dict_get track (env_configs (self st))) as [cfg|] eqn:Hcfg.
    + now rewrite (new_environment_run orc track name cfg st Hcfg).
    + now rewrite (new_environment_invalid orc track name st Hcfg).
  - now rewrite generate_env_id_run.
  - now rewrite simulate_run.
Qed.

Lemma run_calls_self orc cs st : self (run_calls orc cs st) = self st.
Proof.
  unfold run_calls. revert st.
  induction cs as [|c cs IH]; intros st; cbn [fold_left]; [reflexivity|].
  now rewrite IH, run_call_self.
Qed.

(** * The provisioner against its specification *)

(** C8. [_simulate_aws_provisioning] only prints: for every identifier, every
    track configuration and every state, the call returns [None], the
    provisioner's fields (output directory and catalog), the directories, the
    files, and the clock and entropy counters are what they were, and the
    only effects are four printed lines appended to the console. *)
Theorem simulate_changes_console_only (env_id : string) (config : Template) (st : State) :
  let r := _simulate_aws_provisioning env_id config st in
  let st' := snd r in
  fst r = Returns VNone
  /\ self st' = self st
  /\ dirs (world st') = dirs (world st)
  /\ files (world st') = files (world st)
  /\ now_calls (world st') = now_calls (world st)
  /\ urandom_read (world st') = urandom_read (world st)
  /\ exists l1 l2 l3 l4,
       stdout (world st') = stdout (world st) ++ [l1; l2; l3; l4]
       /\ trace (world st')
          = trace (world st) ++ [Printed l1; Printed l2; Printed l3; Printed l4].
Proof.
  cbv zeta. rewrite simulate_run. cbn [fst snd self world dirs files now_calls
    urandom_read stdout trace].
  repeat split. do 4 eexists. split; reflexivity.
Qed.

(** C9. The catalog is an invariant: after the constructor and any sequence
    of calls of [new_environment], [_generate_env_id] and
    [_simulate_aws_provisioning] with any arguments, [env_configs] is the
    mapping the constructor set, with its three tracks in their order. *)
Theorem env_configs_invariant (orc : Oracle) (output_dir : string) (w : World)
    (cs : list call) :
  env_configs (self (run_calls orc cs (__init__ output_dir w)))
  = env_configs (self (__init__ output_dir w))
  /\ env_configs (self (__init__ output_dir w)) = default_env_configs
  /\ dict_keys default_env_configs = ["demo"; "customer"; "platform"].
Proof.
  rewrite run_calls_self. repeat split.
Qed.

(** C6. Each of the three tracks resolves in the catalog of a constructed
    provisioner to a template with a non-empty resource list, and resolving
    it again after any sequence of calls gives the same template, field by
    field. *)
Theorem resolve_valid_track (orc : Oracle) (output_dir : string) (w : World)
    (track : string) :
  In track ["demo"; "customer"; "platform"] ->
  exists t : Template,
    dict_get track (env_configs (self (__init__ output_dir w))) = Some t
    /\ resources t <> []
    /\ forall cs t',
         dict_get track
           (env_configs (self (run_calls orc cs (__init__ output_dir w)))) = Some t' ->
         description t' = description t
         /\ infrastructure_template t' = infrastructure_template t
         /\ ci_cd_profile t' = ci_cd_profile t
         /\ agent_policy t' = agent_policy t
         /\ resources t' = resources t.
Proof.
  intros Hin. destruct (catalog_lookup track Hin) as (t & Hget & Hres).
  exists t. split; [exact Hget|]. split; [exact Hres|].
  intros cs t'. rewrite run_calls_self. cbn [__init__ self env_configs].
  rewrite Hget. intros [= <-]. repeat split.
Qed.

Lemma resolve_valid_track_witness :
  exists t : Template,
    dict_get "customer" (env_configs (self (__init__ default_output_dir empty_world)))
    = Some t
    /\ resources t <> [].
Proof.
  destruct (resolve_valid_track sample_oracle default_output_dir empty_world
              "customer" ltac:(simpl; auto)) as (t & Hget & Hres & _).
  exists t. split; assumption.
Defined.

Lemma constructed_lookup st track :
  constructed st -> In track tracks ->
  exists cfg, dict_get track (env_configs (self st)) = Some cfg.
Proof.
  intros Hc Hin. rewrite Hc.
  destruct (catalog_lookup track Hin) as (cfg & Hget & _). now exists cfg.
Qed.



(** ** The identifier of a submission *)

Lemma generated_id_shape orc track w :
  valid_datetime (wall_clock orc (now_calls w)) = true ->
  exists ts sfx : string,
    generated_id orc track w = track +:+ "-" +:+ ts +:+ "-" +:+ sfx
    /\ String.length ts = 14 /\ string_forall is_digit ts = true
    /\ String.length sfx = 8 /\ string_forall is_lower_hex sfx = true.
Proof.
  intros Hv.
  exists (strftime_YmdHMS (wall_clock orc (now_calls w))),
         (hex (map (entropy orc) (seq (urandom_read w) 4))).
  split; [reflexivity|].
  split; [now apply strftime_length|].
  split; [now apply strftime_digits|].
  split; [now rewrite hex_length, urandom_length | apply hex_lower].
Qed.

Lemma new_environment_log orc track name cfg st :
  dict_get track (env_configs (self st)) = Some cfg ->
  files (world (snd (new_environment orc track name st)))
  !! os_path_join (output_dir (self st)) (chosen_id orc track name (world st) +:+ ".log")
  = Some (log_contents orc track name cfg (world st)).
Proof.
  intros Hget. rewrite (new_environment_run orc track name cfg st Hget).
  cbn [snd after_new_environment world files]. apply lookup_insert_eq.
Qed.

Lemma new_environment_stdout orc track name cfg st :
  dict_get track (env_configs (self st)) = Some cfg ->
  let env_id := chosen_id orc track name (world st) in
  stdout (world (snd (new_environment orc track name st)))
  = stdout (world st)
    ++ console_lines track env_id
         (os_path_join (output_dir (self st)) (env_id +:+ ".log")) cfg.
Proof.
  intros Hget. rewrite (new_environment_run orc track name cfg st Hget).
  reflexivity.
Qed.










(** C3, as the code has it. For every track outside the fixed set,
    [new_environment] does not fail: it returns [None] as on success. It
    prints one line naming the track and the available tracks, and creates
    no log file: the files, the directories, the provisioner and the
    oracle counters stay as they were. *)
Theorem invalid_track_reported_on_console (orc : Oracle) (track : string)
    (name : option string) (st : State) :
  constructed st ->
  ~ In track ["demo"; "customer"; "platform"] ->
  let r := new_environment orc track name st in
  let line := "Error: Invalid track type '" +:+ track
              +:+ "'. Available tracks are: demo, customer, platform" in
  fst r = Returns VNone
  /\ self (snd r) = self st
  /\ files (world (snd r)) = files (world st)
  /\ dirs (world (snd r)) = dirs (world st)
  /\ now_calls (world (snd r)) = now_calls (world st)
  /\ urandom_read (world (snd r)) = urandom_read (world st)
  /\ stdout (world (snd r)) = stdout (world st) ++ [line]
  /\ trace (world (snd r)) = trace (world st) ++ [Printed line].
Proof.
  intros Hc Hnot r line. subst r line.
  assert (Hget : dict_get track (env_configs (self st)) = None)
    by (rewrite Hc; now apply catalog_lookup_none).
  rewrite (new_environment_invalid orc track name st Hget).
  unfold after_invalid_track, invalid_track_line. rewrite Hc.
  repeat split.
Qed.

Lemma invalid_track_reported_on_console_witness :
  fst (new_environment sample_oracle "bogus" None fresh_state) = Returns VNone
  /\ files (world (snd (new_environment sample_oracle "bogus" None fresh_state)))
     = files (world fresh_state).
Proof.
  destruct (invalid_track_reported_on_console sample_oracle "bogus" None fresh_state
              ltac:(reflexivity)
              ltac:(simpl; intros [H|[H|[H|[]]]]; discriminate H))
    as (Hret & _ & Hfiles & _).
  split; assumption.
Defined.

(** C3 as the claim states it fails: the submission of track "bogus" does
    not fail with UnknownTrack, it returns [None]. *)
Lemma invalid_track_does_not_raise :
  fst (new_environment sample_oracle "bogus" None fresh_state) = Returns VNone
  /\ fst (new_environment sample_oracle "bogus" None fresh_state)
     <> Raises (Exn "UnknownTrack").
Proof.
  assert (H : fst (new_environment sample_oracle "bogus" None fresh_state)
              = Returns VNone) by (vm_compute; reflexivity).
  rewrite H. split; [reflexivity | discriminate].
Qed.

(** ** Uniqueness of identifiers *)

Lemma generated_id_eq_iff orc t1 t2 w1 w2 :
  valid_datetime (wall_clock orc (now_calls w1)) = true ->
  valid_datetime (wall_clock orc (now_calls w2)) = true ->
  generated_id orc t1 w1 = generated_id orc t2 w2
  <-> t1 = t2
      /\ to_the_second (wall_clock orc (now_calls w1))
         = to_the_second (wall_clock orc (now_calls w2))
      /\ map (entropy orc) (seq (urandom_read w1) 4)
         = map (entropy orc) (seq (urandom_read w2) 4).
Proof.
  intros Hv1 Hv2. unfold generated_id. split.
  - intros Heq.
    apply append_eq_split in Heq.
    2:{ rewrite !length_append, !strftime_length, !hex_length, !urandom_length
          by assumption. reflexivity. }
    destruct Heq as [Ht Heq]. split; [exact Ht|].
    apply append_eq_split_l in Heq; [|reflexivity].
    destruct Heq as [_ Heq].
    apply append_eq_split_l in Heq; [|now rewrite !strftime_length].
    destruct Heq as [Hts Heq].
    apply append_eq_split_l in Heq; [|reflexivity].
    destruct Heq as [_ Hhex].
    split; [now apply strftime_inj|].
    apply hex_inj; [now rewrite !urandom_length | exact Hhex].
  - intros (-> & Hts & ->).
    rewrite <- (strftime_to_the_second (wall_clock orc (now_calls w1))), Hts.
    now rewrite strftime_to_the_second.
Qed.

(** C1, as the code has it. Identifiers are not checked against the
    existing ones and nothing fails with DuplicateIdentifier.  A submission
    with a valid track and a non-empty name whose log file already exists
    returns [None] like any other, and the file then holds the records of
    this submission only: the earlier contents are gone.  Two generated
    identifiers are equal exactly when the tracks, the clock readings cut at
    the second and the four random bytes are equal. *)
Theorem identifiers_not_collision_checked :
  (forall (orc : Oracle) (track name : string) (st : State) (old : list chunk),
      constructed st ->
      In track ["demo"; "customer"; "platform"] ->
      name <> "" ->
      files (world st) !! os_path_join (output_dir (self st)) (name +:+ ".log")
      = Some old ->
      let r := new_environment orc track (Some name) st in
      fst r = Returns VNone
      /\ exists (d1 d2 : dict pyval) (t1 t2 t3 : string),
           files (world (snd r))
           !! os_path_join (output_dir (self st)) (name +:+ ".log")
           = Some [JsonDump 4 d1; Write t1; Write t2; Write t3; JsonDump 4 d2]
           /\ dict_get "env_id" d1 = Some (VStr name)
           /\ dict_get "track_type" d1 = Some (VStr track)
           /\ dict_get "env_id" d2 = Some (VStr name)
           /\ dict_get "track_type" d2 = Some (VStr track))
  /\ (forall (orc : Oracle) (track1 track2 : string) (st1 st2 : State),
        valid_datetime (wall_clock orc (now_calls (world st1))) = true ->
        valid_datetime (wall_clock orc (now_calls (world st2))) = true ->
        fst (_generate_env_id orc track1 st1) = fst (_generate_env_id orc track2 st2)
        <-> track1 = track2
            /\ to_the_second (wall_clock orc (now_calls (world st1)))
               = to_the_second (wall_clock orc (now_calls (world st2)))
            /\ map (entropy orc) (seq (urandom_read (world st1)) 4)
               = map (entropy orc) (seq (urandom_read (world st2)) 4)).
Proof.
  split.
  - intros orc track name st old Hc Hin Hname _ r.
    destruct (constructed_lookup st track Hc Hin) as (cfg & Hget).
    destruct name as [|c n]; [congruence|].
    subst r. split.
    + now rewrite (new_environment_run orc track (Some (String c n)) cfg st Hget).
    + do 5 eexists. split.
      * apply (new_environment_log orc track (Some (String c n)) cfg st Hget).
      * repeat split.
  - intros orc track1 track2 st1 st2 Hv1 Hv2.
    rewrite !generate_env_id_run. cbn [fst].
    rewrite <- (generated_id_eq_iff orc track1 track2 (world st1) (world st2) Hv1 Hv2).
    split; [intros [= H]; exact H | intros ->; reflexivity].
Qed.

Lemma identifiers_not_collision_checked_witness :
  fst (new_environment sample_oracle "customer" (Some "demo-1") state_with_demo_1)
  = Returns VNone.
Proof.
  refine (proj1 (proj1 identifiers_not_collision_checked sample_oracle "customer"
                   "demo-1" state_with_demo_1
                   (log_contents sample_oracle "demo" (Some "demo-1")
                      (mkTemplate
                         "Short-Term Demo Environment - ephemeral, cost-optimized, rapid."
                         "aws_demo_template.json" "demo_ci_cd_profile.json"
                         "demo_agent_policy.json"
                         ["Lambda"; "DynamoDB (on-demand)"; "API Gateway"])
                      (world fresh_state))
                   _ _ _ _)).
  - reflexivity.
  - simpl; auto.
  - discriminate.
  - apply (new_environment_log sample_oracle "demo" (Some "demo-1") _ fresh_state).
    reflexivity.
Defined.

(** C1 as the claim states it fails: two submissions with the name
    "demo-1" both go through with that identifier; the second does not fail
    with DuplicateIdentifier and its record replaces the first. *)
Lemma duplicate_name_accepted :
  let r1 := new_environment sample_oracle "demo" (Some "demo-1") fresh_state in
  let r2 := new_environment sample_oracle "customer" (Some "demo-1") (snd r1) in
  fst r1 = Returns VNone
  /\ fst r2 = Returns VNone
  /\ fst r2 <> Raises (Exn "DuplicateIdentifier")
  /\ List.length
       (filter (String.eqb "Environment ID: demo-1") (stdout (world (snd r2)))) = 2
  /\ logged_env_id (snd r1) "env_provisioning_logs/demo-1.log" = Some (VStr "demo-1")
  /\ logged_env_id (snd r2) "env_provisioning_logs/demo-1.log" = Some (VStr "demo-1")
  /\ size (files (world (snd r2))) = 1.
Proof.
  cbv zeta.
  assert (H2 : fst (new_environment sample_oracle "customer" (Some "demo-1")
                      (snd (new_environment sample_oracle "demo" (Some "demo-1")
                              fresh_state))) = Returns VNone)
    by (vm_compute; reflexivity).
  rewrite H2.
  split; [vm_compute; reflexivity|].
  split; [reflexivity|].
  split; [discriminate|].
  split; [vm_compute; reflexivity|].
  split; [vm_compute; reflexivity|].
  split; [vm_compute; reflexivity|].
  vm_compute; reflexivity.
Qed.

(** * Further properties of the code *)

(** ** Dictionaries *)

Lemma dict_get_set_eq {V} (k : string) (v : V) (d : dict V) :
  dict_get k (dict_set k v d) = Some v.
Proof.
  induction d as [|[k' v'] d IH]; cbn [dict_set dict_get].
  - now rewrite String.eqb_refl.
  - destruct (String.eqb k k') eqn:E; cbn [dict_get]; rewrite E; [reflexivity | exact IH].
Qed.

Lemma dict_get_set_ne {V} (k k0 : string) (v : V) (d : dict V) :
  k0 <> k -> dict_get k0 (dict_set k v d) = dict_get k0 d.
Proof.
  intros Hne. induction d as [|[k' v'] d IH]; cbn [dict_set dict_get].
  - apply String.eqb_neq in Hne. now rewrite Hne.
  - destruct (String.eqb_spec k k') as [->|Hk]; cbn [dict_get].
    + apply String.eqb_neq in Hne. now rewrite Hne.
    + now rewrite IH.
Qed.

(** ** Paths *)

Lemma startswith_slash_log (n : string) :
  n <> "" -> startswith_slash (n +:+ ".log") = startswith_slash n.
Proof. destruct n; [congruence | reflexivity]. Qed.

(** In one directory, names that are not absolute give different log
    paths when they differ. *)
Lemma log_path_inj (dir n1 n2 : string) :
  startswith_slash (n1 +:+ ".log") = false ->
  startswith_slash (n2 +:+ ".log") = false ->
  os_path_join dir (n1 +:+ ".log") = os_path_join dir (n2 +:+ ".log") ->
  n1 = n2.
Proof.
  unfold os_path_join. intros -> -> Heq.
  assert (Hlog : n1 +:+ ".log" = n2 +:+ ".log").
  { destruct ((String.length dir =? 0)%nat || endswith_slash dir).
    - apply append_eq_split_l in Heq; [tauto | reflexivity].
    - apply append_eq_split_l in Heq; [|reflexivity].
      destruct Heq as [_ Heq].
      apply append_eq_split_l in Heq; [tauto | reflexivity]. }
  apply append_eq_split in Hlog; [tauto | reflexivity].
Qed.

(** ** What the methods leave alone *)

(** X7. [_generate_env_id] works for any string as track and touches only
    the oracle: the result is the track, a hyphen and the rest; the
    provisioner, the directories, the files and the console are unchanged;
    one clock reading and four entropy bytes are consumed. *)
Theorem generate_env_id_frame (orc : Oracle) (track : string) (st : State) :
  let r := _generate_env_id orc track st in
  (exists rest : string, fst r = Returns (track +:+ "-" +:+ rest))
  /\ self (snd r) = self st
  /\ dirs (world (snd r)) = dirs (world st)
  /\ files (world (snd r)) = files (world st)
  /\ stdout (world (snd r)) = stdout (world st)
  /\ trace (world (snd r)) = trace (world st)
  /\ now_calls (world (snd r)) = S (now_calls (world st))
  /\ urandom_read (world (snd r)) = urandom_read (world st) + 4.
Proof.
  cbv zeta. rewrite generate_env_id_run. cbn [fst snd self world dirs files
    stdout trace now_calls urandom_read].
  split; [eexists; reflexivity | repeat split].
Qed.



(** X3. For any track, any name and any state, [new_environment] changes at
    most one path of the file system, makes no directory and leaves the
    provisioner as it was. *)
Theorem new_environment_touches_one_file (orc : Oracle) (track : string)
    (name : option string) (st : State) :
  let st' := snd (new_environment orc track name st) in
  self st' = self st
  /\ dirs (world st') = dirs (world st)
  /\ exists path : string,
       forall p : string, p <> path ->
         files (world st') !! p = files (world st) !! p.
Proof.
  cbv zeta.
  destruct (dict_get track (env_configs (self st))) as [cfg|] eqn:Hget.
  - rewrite (new_environment_run orc track name cfg st Hget).
    cbn [snd after_new_environment self world dirs files].
    repeat split.
    exists (os_path_join (output_dir (self st))
              (chosen_id orc track name (world st) +:+ ".log")).
    intros p Hp. apply lookup_insert_ne. intros Heq. apply Hp. now symmetry.
  - rewrite (new_environment_invalid orc track name st Hget).
    cbn [snd after_invalid_track self world dirs files].
    repeat split. exists "". reflexivity.
Qed.








(** ** Sequences of calls *)

(** One call either leaves the files alone or writes one finished log. *)
Lemma run_call_summary orc c st :
  (files (world (run_call orc c st)) = files (world st)
   \/ exists path contents,
        files (world (run_call orc c st)) = <[path := contents]> (files (world st))
        /\ complete_log (output_dir (self st)) path contents)
  /\ exists more, stdout (world (run_call orc c st)) = stdout (world st) ++ more.
Proof.
  destruct c as [track name | track | env_id config]; cbn [run_call].
  - destruct (dict_get track (env_configs (self st))) as [cfg|] eqn:Hget.
    + rewrite (new_environment_run orc track name cfg st Hget).
      cbn [snd after_new_environment world files stdout]. split.
      * right. do 2 eexists. split; [reflexivity|].
        exists (chosen_id orc track name (world st)). do 5 eexists.
        split; [reflexivity|]. repeat split.
      * eexists. reflexivity.
    + rewrite (new_environment_invalid orc track name st Hget).
      cbn [snd after_invalid_track world files stdout]. split.
      * now left.
      * eexists. reflexivity.
  - rewrite generate_env_id_run. cbn [snd world files stdout]. split.
    + now left.
    + exists []. now rewrite app_nil_r.
  - rewrite simulate_run. cbn [snd world files stdout]. split.
    + now left.
    + eexists. reflexivity.
Qed.

Lemma run_calls_cons orc c cs st :
  run_calls orc (c :: cs) st = run_calls orc cs (run_call orc c st).
Proof. reflexivity. Qed.



(** X9. No sequence of calls deletes a file or takes back a printed line:
    every path that holds a file before holds one after, and the console
    after is the console before with lines added at the end. *)
Theorem files_persist_console_grows (orc : Oracle) (cs : list call) (st : State) :
  dom (files (world st)) ⊆ dom (files (world (run_calls orc cs st)))
  /\ exists more : list string,
       stdout (world (run_calls orc cs st)) = stdout (world st) ++ more.
Proof.
  revert st. induction cs as [|c cs IH]; intros st.
  - split; [reflexivity | exists []; now rewrite app_nil_r].
  - rewrite run_calls_cons.
    destruct (IH (run_call orc c st)) as [Hdom (more2 & Hout)].
    destruct (run_call_summary orc c st) as [Hfiles (more1 & Hout1)].
    split.
    + etransitivity; [|exact Hdom].
      destruct Hfiles as [-> | (path & cnt & -> & _)]; [reflexivity|].
      rewrite dom_insert. apply union_subseteq_r.
    + exists (more1 ++ more2). now rewrite Hout, Hout1, app_assoc.
Qed.

(** ** The command line *)



(** ** Time stamps and console lines of a submission *)

Lemma valid_datetime_microsecond d :
  valid_datetime d = true -> (microsecond d < 10 ^ N.of_nat 6)%N.
Proof.
  unfold valid_datetime. intros H.
  apply andb_prop in H. destruct H as [_ H].
  apply N.ltb_lt in H. exact H.
Qed.

Lemma str_datetime_length d :
  valid_datetime d = true ->
  String.length (str_datetime d) = if (microsecond d =? 0)%N then 19 else 26.
Proof.
  intros Hv. pose proof (valid_datetime_microsecond d Hv) as Hus.
  apply valid_datetime_ranges in Hv.
  destruct Hv as (Hy & Hmo & Hd & Hh & Hmi & Hs).
  unfold str_datetime. rewrite !zpad_in_range by assumption.
  destruct (microsecond d =? 0)%N;
    rewrite !length_append, !length_fixed_dec; reflexivity.
Qed.




